(** * libraries.ts: planning and applying the sync of one Zotero web library

  A shallow embedding of [librarySyncActions], [librarySync],
  [hasLibrarySyncActions] and [syncObjects] of libraries.ts, and the
  properties of the delta planner and of the replica merger.

  JavaScript arrays are lists, [push] appends at the end, [includes] on
  string keys is membership by string equality, an optional field is an
  [option], and [a || b] selects [b] exactly when [a] is falsy.  The
  [await]ed calls are modelled by their results; the tracing calls write
  to a log only and are left out. *)

From Stdlib Require Import List String ZArith Bool Lia.
Import ListNotations.

Local Open Scope string_scope.
Local Open Scope list_scope.
Local Open Scope Z_scope.

(** ** JavaScript values and truthiness *)

Module Js.

(** The values an item payload field can hold, as far as truthiness goes. *)
Inductive value : Type :=
| Undefined
| Null
| Bool (b : bool)
| Num (n : Z)
| Str (s : string).

Definition truthy (v : value) : bool :=
  match v with
  | Undefined | Null => false
  | Bool b => b
  | Num n => negb (n =? 0)
  | Str EmptyString => false
  | Str _ => true
  end.

(** [obj[name]] on a plain object given by its entries. *)
Fixpoint get (obj : list (string * value)) (name : string) : value :=
  match obj with
  | [] => Undefined
  | (k, v) :: rest => if (k =? name)%string then v else get rest name
  end.

(** [Object.keys(obj)]. *)
Definition keys {V : Type} (obj : list (string * V)) : list string :=
  map fst obj.

(** [a || b] where [a] is an optional number and [b] a number: the
    fallback is taken when [a] is undefined or zero. *)
Definition or_number (a : option Z) (b : Z) : Z :=
  match a with
  | Some n => if n =? 0 then b else n
  | None => b
  end.

(** [a || b] on optional objects: an object is always truthy. *)
Definition or_object {A : Type} (a b : option A) : option A :=
  match a with
  | Some x => Some x
  | None => b
  end.

(** [arr.includes(k)] on an array of strings. *)
Definition includes (arr : list string) (k : string) : bool :=
  existsb (String.eqb k) arr.

End Js.

(** ** sync.ts: action sets and their application *)

Section SyncObjects.

(** [T extends { key: string }] *)
Variable T : Type.
Variable key : T -> string.

Record SyncActions : Type := mkSyncActions {
  deleted : list string;
  updated : list T
}.

(** [syncActions.deleted.push(k)] and [syncActions.updated.push(obj)]. *)
Definition push_deleted (syncActions : SyncActions) (k : string)
  : SyncActions :=
  {| deleted := deleted syncActions ++ [k];
     updated := updated syncActions |}.

Definition push_updated (syncActions : SyncActions) (obj : T)
  : SyncActions :=
  {| deleted := deleted syncActions;
     updated := updated syncActions ++ [obj] |}.

(** The keys of a sequence of entries. *)
Definition keys_of (objects : list T) : list string := map key objects.

Definition syncObjects (objects : list T) (syncActions : SyncActions)
  : list T :=
  (* handle deletes *)
  let objects :=
    filter (fun obj => negb (Js.includes (deleted syncActions) (key obj)))
           objects in
  (* handle updates (remove then add) *)
  let updatedIds := map key (updated syncActions) in
  let objects :=
    filter (fun obj => negb (Js.includes updatedIds (key obj))) objects in
  objects ++ updated syncActions.

(** The merge as the specification words it: the entries of the input
    whose key is neither deleted nor the key of an updated entry, in their
    order, and then the updated entries. *)
Fixpoint untouched (objects : list T) (gone changed : list string)
  : list T :=
  match objects with
  | [] => []
  | obj :: rest =>
      if Js.includes gone (key obj) then untouched rest gone changed
      else if Js.includes changed (key obj) then untouched rest gone changed
      else obj :: untouched rest gone changed
  end.

Definition merge_spec (objects : list T) (syncActions : SyncActions)
  : list T :=
  untouched objects (deleted syncActions) (keys_of (updated syncActions))
    ++ updated syncActions.

(** No key is both deleted and the key of an updated entry. *)
Definition overlap_free (syncActions : SyncActions) : Prop :=
  forall k, In k (deleted syncActions) ->
            ~ In k (keys_of (updated syncActions)).

(** Every key occurs at most once in the sequence. *)
Definition unique_keys (objects : list T) : Prop :=
  NoDup (keys_of objects).

End SyncObjects.

Arguments mkSyncActions {T} _ _.
Arguments deleted {T} _.
Arguments updated {T} _.
Arguments push_deleted {T} _ _.
Arguments push_updated {T} _ _.
Arguments keys_of {T} _ _.
Arguments syncObjects {T} _ _ _.
Arguments untouched {T} _ _ _ _.
Arguments merge_spec {T} _ _ _.
Arguments overlap_free {T} _ _.
Arguments unique_keys {T} _ _.

(** ** api.ts: the remote entities and the remote collaborator

    api.ts is not among the sources.  The records keep what libraries.ts
    reads of each type. *)

Record User : Type := mkUser { userID : Z }.

(** Modelled from the spec: the group metadata of a group library; only
    [id] is read by libraries.ts. *)
Record Group : Type := mkGroup {
  group_id : Z;
  group_version : Z;
  group_name : string
}.

(** Modelled from the spec: a remote entity identified by its [key],
    carrying a version and a payload (here the collection's name). *)
Record Collection : Type := mkCollection {
  coll_key : string;
  coll_version : Z;
  coll_name : string
}.

(** Modelled from the spec: a remote entity identified by its [key],
    carrying a version and a payload [data], a plain object whose
    ["deleted"] entry is the self-deletion flag. *)
Record Item : Type := mkItem {
  item_key : string;
  item_version : Z;
  item_data : list (string * Js.value)
}.

Inductive LibraryType : Type := UserLibrary | GroupLibrary.

Record Library : Type := mkLibrary {
  lib_type : LibraryType;
  lib_id : Z;
  lib_group : option Group
}.

(** The response of [zotero.deleted]. *)
Record DeletedData : Type := mkDeletedData {
  del_collections : list string;
  del_items : list string
}.

Record DeletedResponse : Type := mkDeletedResponse {
  del_version : option Z;
  del_data : DeletedData
}.

(** The response of [zotero.collectionVersions] and [zotero.itemVersions]:
    a version and an object from key to version. *)
Record VersionsResponse : Type := mkVersionsResponse {
  vr_version : option Z;
  vr_data : list (string * Z)
}.

(** The remote collaborator at the time of one sync: each call is given by
    its result; [None] is the null answer for nothing changed. *)
Record ZoteroApi : Type := mkZoteroApi {
  zotero_deleted : Library -> Z -> option DeletedResponse;
  zotero_collectionVersions : Library -> Z -> option VersionsResponse;
  zotero_collections : Library -> list string -> list Collection;
  zotero_itemVersions : Library -> Z -> option VersionsResponse;
  zotero_items : Library -> list string -> list Item
}.

(** ** libraries.ts: data *)

Record LibraryVersions : Type := mkLibraryVersions {
  ver_collections : Z;
  ver_items : Z;
  ver_deleted : Z
}.

Record LibraryData : Type := mkLibraryData {
  data_group : option Group;
  data_versions : LibraryVersions;
  data_collections : list Collection;
  data_items : list Item
}.

Record LibrarySyncActions : Type := mkLibrarySyncActions {
  sync_group : option Group;
  sync_versions : LibraryVersions;
  sync_collections : SyncActions Collection;
  sync_items : SyncActions Item
}.

(** ** storage.ts: the local store

    storage.ts is not among the sources; the three functions libraries.ts
    calls are the state of the store. *)
Record Storage : Type := mkStorage {
  userWebLibrariesDir : User -> string;
  libraryReadVersions : User -> Library -> LibraryVersions;
  libraryRead : string -> Library -> LibraryData
}.

(** Modelled from the spec: the store after the caller has written the
    snapshot [data] of the library under sync ([writeSnapshot]); reading
    the versions or the snapshot then returns what was written. *)
Definition libraryWrite (storage : Storage) (data : LibraryData) : Storage :=
  {| userWebLibrariesDir := userWebLibrariesDir storage;
     libraryReadVersions := fun _ _ => data_versions data;
     libraryRead := fun _ _ => data |}.

(** ** libraries.ts: functions *)

Definition libraryList (user : User) (groups : list Group) : list Library :=
  [ {| lib_type := UserLibrary; lib_id := userID user; lib_group := None |} ]
  ++ map (fun group => {| lib_type := GroupLibrary;
                          lib_id := group_id group;
                          lib_group := Some group |}) groups.

(** Assignments to the fields of the plan under construction. *)
Definition set_versions_deleted (s : LibrarySyncActions) (v : Z) :=
  {| sync_group := sync_group s;
     sync_versions := {| ver_collections := ver_collections (sync_versions s);
                         ver_items := ver_items (sync_versions s);
                         ver_deleted := v |};
     sync_collections := sync_collections s;
     sync_items := sync_items s |}.

Definition set_versions_collections (s : LibrarySyncActions) (v : Z) :=
  {| sync_group := sync_group s;
     sync_versions := {| ver_collections := v;
                         ver_items := ver_items (sync_versions s);
                         ver_deleted := ver_deleted (sync_versions s) |};
     sync_collections := sync_collections s;
     sync_items := sync_items s |}.

Definition set_versions_items (s : LibrarySyncActions) (v : Z) :=
  {| sync_group := sync_group s;
     sync_versions := {| ver_collections := ver_collections (sync_versions s);
                         ver_items := v;
                         ver_deleted := ver_deleted (sync_versions s) |};
     sync_collections := sync_collections s;
     sync_items := sync_items s |}.

Definition with_collections (s : LibrarySyncActions)
  (f : SyncActions Collection -> SyncActions Collection) :=
  {| sync_group := sync_group s;
     sync_versions := sync_versions s;
     sync_collections := f (sync_collections s);
     sync_items := sync_items s |}.

Definition with_items (s : LibrarySyncActions)
  (f : SyncActions Item -> SyncActions Item) :=
  {| sync_group := sync_group s;
     sync_versions := sync_versions s;
     sync_collections := sync_collections s;
     sync_items := f (sync_items s) |}.

(** [item.data["deleted"]] as a condition. *)
Definition item_deleted (item : Item) : bool :=
  Js.truthy (Js.get (item_data item) "deleted").

(** The three blocks of [librarySyncActions], each a step on the plan. *)

(** check for deletes *)
Definition check_deletes (zotero : ZoteroApi) (library : Library)
  (versions : LibraryVersions) (syncActions : LibrarySyncActions)
  : LibrarySyncActions :=
  match zotero_deleted zotero library (ver_deleted versions) with
  | Some deleted =>
      (* update version *)
      let syncActions :=
        set_versions_deleted syncActions
          (Js.or_number (del_version deleted)
                        (ver_deleted (sync_versions syncActions))) in
      (* process deleted collections *)
      let syncActions :=
        fold_left (fun s deletedCollection =>
                     with_collections s
                       (fun c => push_deleted c deletedCollection))
                  (del_collections (del_data deleted)) syncActions in
      (* process deleted items *)
      fold_left (fun s deletedItem =>
                   with_items s (fun i => push_deleted i deletedItem))
                (del_items (del_data deleted)) syncActions
  | None => syncActions
  end.

(** check for collections *)
Definition check_collections (zotero : ZoteroApi) (library : Library)
  (versions : LibraryVersions) (syncActions : LibrarySyncActions)
  : LibrarySyncActions :=
  match zotero_collectionVersions zotero library (ver_collections versions)
  with
  | Some collectionChanges =>
      (* process changes *)
      let collections :=
        zotero_collections zotero library
          (Js.keys (vr_data collectionChanges)) in
      let syncActions :=
        fold_left (fun s collection =>
                     with_collections s
                       (fun c => push_updated c collection))
                  collections syncActions in
      (* update version *)
      set_versions_collections syncActions
        (Js.or_number (vr_version collectionChanges)
                      (ver_collections (sync_versions syncActions)))
  | None => syncActions
  end.

(** check for items *)
Definition check_items (zotero : ZoteroApi) (library : Library)
  (versions : LibraryVersions) (syncActions : LibrarySyncActions)
  : LibrarySyncActions :=
  match zotero_itemVersions zotero library (ver_items versions) with
  | Some itemChanges =>
      (* process changes *)
      let items :=
        zotero_items zotero library (Js.keys (vr_data itemChanges)) in
      let syncActions :=
        fold_left (fun s item =>
                     if item_deleted item
                     then with_items s
                            (fun i => push_deleted i (item_key item))
                     else with_items s (fun i => push_updated i item))
                  items syncActions in
      (* update version *)
      set_versions_items syncActions
        (Js.or_number (vr_version itemChanges)
                      (ver_items (sync_versions syncActions)))
  | None => syncActions
  end.

Definition librarySyncActions (storage : Storage) (user : User)
  (library : Library) (groupSync : option Group) (zotero : ZoteroApi)
  : LibrarySyncActions :=
  (* actions we will return *)
  let syncActions :=
    {| sync_versions := {| ver_collections := 0;
                           ver_items := 0;
                           ver_deleted := 0 |};
       sync_group := Js.or_object groupSync None;
       sync_collections := {| deleted := []; updated := [] |};
       sync_items := {| deleted := []; updated := [] |} |} in
  (* get library version numbers already synced to *)
  let versions := libraryReadVersions storage user library in
  let syncActions := check_deletes zotero library versions syncActions in
  let syncActions := check_collections zotero library versions syncActions in
  let syncActions := check_items zotero library versions syncActions in
  syncActions.

Definition librarySync (storage : Storage) (user : User) (library : Library)
  (syncActions : LibrarySyncActions) : LibraryData :=
  (* read collections and apply actions *)
  let dir := userWebLibrariesDir storage user in
  let local := libraryRead storage dir library in
  let localCollections := data_collections local in
  let localItems := data_items local in
  let collections :=
    syncObjects coll_key localCollections (sync_collections syncActions) in
  let items := syncObjects item_key localItems (sync_items syncActions) in
  (* return objects *)
  {| data_group := Js.or_object (sync_group syncActions) (lib_group library);
     data_versions := sync_versions syncActions;
     data_collections := collections;
     data_items := items |}.

(** The value of [sync.group || (... > 0) || ...]: the group object when
    it is there, a boolean otherwise. *)
Inductive GroupOrBoolean : Type :=
| IsGroup (g : Group)
| IsBoolean (b : bool).

Definition truthy_result (r : GroupOrBoolean) : bool :=
  match r with
  | IsGroup _ => true
  | IsBoolean b => b
  end.

Definition hasLibrarySyncActions (sync : LibrarySyncActions)
  : GroupOrBoolean :=
  match sync_group sync with
  | Some g => IsGroup g
  | None =>
      IsBoolean
        ((0 <? List.length (deleted (sync_collections sync)))%nat
         || (0 <? List.length (updated (sync_collections sync)))%nat
         || (0 <? List.length (deleted (sync_items sync)))%nat
         || (0 <? List.length (updated (sync_items sync)))%nat)
  end.

(** What the remote reported for one plan: the keys of the deletion feed
    and the entities fetched after each change query (nothing when the
    query answered null). *)
Definition deletion_feed (zotero : ZoteroApi) (library : Library)
  (versions : LibraryVersions) : DeletedData :=
  match zotero_deleted zotero library (ver_deleted versions) with
  | Some deleted => del_data deleted
  | None => {| del_collections := []; del_items := [] |}
  end.

Definition fetched_collections (zotero : ZoteroApi) (library : Library)
  (versions : LibraryVersions) : list Collection :=
  match zotero_collectionVersions zotero library (ver_collections versions)
  with
  | Some collectionChanges =>
      zotero_collections zotero library (Js.keys (vr_data collectionChanges))
  | None => []
  end.

Definition fetched_items (zotero : ZoteroApi) (library : Library)
  (versions : LibraryVersions) : list Item :=
  match zotero_itemVersions zotero library (ver_items versions) with
  | Some itemChanges =>
      zotero_items zotero library (Js.keys (vr_data itemChanges))
  | None => []
  end.

(** No key of [a] is in [b]. *)
Definition disjoint_keys (a b : list string) : bool :=
  forallb (fun k => negb (Js.includes b k)) a.

(** The plan carries no group and no deletion or update. *)
Definition no_actions (sync : LibrarySyncActions) : Prop :=
  sync_group sync = None
  /\ deleted (sync_collections sync) = []
  /\ updated (sync_collections sync) = []
  /\ deleted (sync_items sync) = []
  /\ updated (sync_items sync) = [].

(** ** Sync cycles

    One cycle plans against the store and the remote of the moment and
    applies the plan; the caller then writes the snapshot, and the next
    cycle reads it. *)
Record Cycle : Type := mkCycle {
  cycle_groupSync : option Group;
  cycle_zotero : ZoteroApi
}.

Definition sync_cycle (storage : Storage) (user : User) (library : Library)
  (c : Cycle) : LibraryData :=
  librarySync storage user library
    (librarySyncActions storage user library
       (cycle_groupSync c) (cycle_zotero c)).

(** The snapshots applied by a sequence of cycles, in order. *)
Fixpoint sync_run (storage : Storage) (user : User) (library : Library)
  (cycles : list Cycle) : list LibraryData :=
  match cycles with
  | [] => []
  | c :: rest =>
      let data := sync_cycle storage user library c in
      data :: sync_run (libraryWrite storage data) user library rest
  end.

Definition versions_le (a b : LibraryVersions) : Prop :=
  ver_collections a <= ver_collections b
  /\ ver_items a <= ver_items b
  /\ ver_deleted a <= ver_deleted b.

(** Each snapshot's cursors are at least those before it, starting from
    [prev]. *)
Fixpoint nondecreasing_from (prev : LibraryVersions)
  (snapshots : list LibraryData) : Prop :=
  match snapshots with
  | [] => True
  | data :: rest =>
      versions_le prev (data_versions data)
      /\ nondecreasing_from (data_versions data) rest
  end.

(** The cursors are non-decreasing from one applied snapshot to the
    next. *)
Definition cursors_nondecreasing (snapshots : list LibraryData) : Prop :=
  match snapshots with
  | [] => True
  | data :: rest => nondecreasing_from (data_versions data) rest
  end.

(** The response carries a version, and it is not below the cursor the
    query was made with. *)
Definition reports_at_least (version : option Z) (since : Z) : bool :=
  match version with
  | Some n => since <=? n
  | None => false
  end.

(** All three queries of a plan are answered, each with a version not
    below the stored cursor. *)
Definition remote_advances (zotero : ZoteroApi) (library : Library)
  (versions : LibraryVersions) : bool :=
  match zotero_deleted zotero library (ver_deleted versions) with
  | Some r => reports_at_least (del_version r) (ver_deleted versions)
  | None => false
  end
  && match zotero_collectionVersions zotero library
             (ver_collections versions) with
     | Some r => reports_at_least (vr_version r) (ver_collections versions)
     | None => false
     end
  && match zotero_itemVersions zotero library (ver_items versions) with
     | Some r => reports_at_least (vr_version r) (ver_items versions)
     | None => false
     end.

Fixpoint advancing_run (storage : Storage) (user : User) (library : Library)
  (cycles : list Cycle) : bool :=
  match cycles with
  | [] => true
  | c :: rest =>
      remote_advances (cycle_zotero c) library
        (libraryReadVersions storage user library)
      && advancing_run
           (libraryWrite storage (sync_cycle storage user library c))
           user library rest
  end.

(** ** Concrete libraries, stores and remotes *)

Module Ex.

Definition user : User := {| userID := 42 |}.

Definition papers : Group :=
  {| group_id := 7; group_version := 3; group_name := "Papers" |}.

Definition personal : Library :=
  {| lib_type := UserLibrary; lib_id := 42; lib_group := None |}.

Definition shared : Library :=
  {| lib_type := GroupLibrary; lib_id := 7; lib_group := Some papers |}.

Definition c1 : Collection :=
  {| coll_key := "C1"; coll_version := 8; coll_name := "Reading" |}.

Definition c1' : Collection :=
  {| coll_key := "C1"; coll_version := 9; coll_name := "Read" |}.

Definition c2 : Collection :=
  {| coll_key := "C2"; coll_version := 4; coll_name := "Drafts" |}.

Definition i3 : Item :=
  {| item_key := "I3"; item_version := 11;
     item_data := [("title", Js.Str "Gone"); ("deleted", Js.Num 1)] |}.

Definition i9 : Item :=
  {| item_key := "I9"; item_version := 7;
     item_data := [("title", Js.Str "Kept")] |}.

(** A store holding cursors 7, 9 and 5 and two collections, one item. *)
Definition stored : LibraryData :=
  {| data_group := None;
     data_versions := {| ver_collections := 7;
                         ver_items := 9;
                         ver_deleted := 5 |};
     data_collections := [c1; c2];
     data_items := [i9] |}.

Definition storage : Storage :=
  {| userWebLibrariesDir := fun _ => "zotero/42";
     libraryReadVersions := fun _ _ => data_versions stored;
     libraryRead := fun _ _ => stored |}.

(** Nothing deleted, nothing changed: every query answers null. *)
Definition quiet : ZoteroApi :=
  {| zotero_deleted := fun _ _ => None;
     zotero_collectionVersions := fun _ _ => None;
     zotero_collections := fun _ _ => [];
     zotero_itemVersions := fun _ _ => None;
     zotero_items := fun _ _ => [] |}.

(** No deletions and no item changes (null), one changed collection whose
    response carries no version. *)
Definition unversioned : ZoteroApi :=
  {| zotero_deleted := fun _ _ => None;
     zotero_collectionVersions := fun _ _ =>
       Some {| vr_version := None; vr_data := [("C1", 9)] |};
     zotero_collections := fun _ _ => [c1'];
     zotero_itemVersions := fun _ _ => None;
     zotero_items := fun _ _ => [] |}.

(** A remote at version [n] on every stream: the deletion feed lists
    collection C1, the collection fetch returns C1 as changed, the item
    fetch returns I3 (flagged deleted) and I9. *)
Definition remote_at (n : Z) : ZoteroApi :=
  {| zotero_deleted := fun _ _ =>
       Some {| del_version := Some n;
               del_data := {| del_collections := ["C1"];
                              del_items := [] |} |};
     zotero_collectionVersions := fun _ _ =>
       Some {| vr_version := Some n; vr_data := [("C1", n)] |};
     zotero_collections := fun _ _ => [c1'];
     zotero_itemVersions := fun _ _ =>
       Some {| vr_version := Some n; vr_data := [("I3", n); ("I9", n)] |};
     zotero_items := fun _ _ => [i3; i9] |}.

(** A remote at version [n] whose feeds do not overlap: collection C2 is
    deleted, collection C1 changed, items I3 and I9 fetched. *)
Definition tidy_at (n : Z) : ZoteroApi :=
  {| zotero_deleted := fun _ _ =>
       Some {| del_version := Some n;
               del_data := {| del_collections := ["C2"];
                              del_items := [] |} |};
     zotero_collectionVersions := fun _ _ =>
       Some {| vr_version := Some n; vr_data := [("C1", n)] |};
     zotero_collections := fun _ _ => [c1'];
     zotero_itemVersions := fun _ _ =>
       Some {| vr_version := Some n; vr_data := [("I3", n); ("I9", n)] |};
     zotero_items := fun _ _ => [i3; i9] |}.

(** An action set whose two updates carry the same key. *)
Definition twice : SyncActions Collection :=
  {| deleted := []; updated := [c1; c1'] |}.

(** An action set that deletes C1 and updates it. *)
Definition both : SyncActions Collection :=
  {| deleted := ["C1"]; updated := [c1'] |}.

Definition plan_of (collections : SyncActions Collection)
  : LibrarySyncActions :=
  {| sync_group := None;
     sync_versions := {| ver_collections := 0;
                         ver_items := 0;
                         ver_deleted := 0 |};
     sync_collections := collections;
     sync_items := {| deleted := []; updated := [] |} |}.

End Ex.

(** ** Runs whose fetches carry each key once *)

(** In every cycle of the run, the collection fetch returns no key twice
    and the item fetch returns no key twice among the items it does not
    flag as deleted; each cycle is read against the store the cycle before
    it has written. *)
Fixpoint fetches_unique (storage : Storage) (user : User)
  (library : Library) (cycles : list Cycle) : Prop :=
  match cycles with
  | [] => True
  | c :: rest =>
      let versions := libraryReadVersions storage user library in
      unique_keys coll_key
        (fetched_collections (cycle_zotero c) library versions)
      /\ unique_keys item_key
           (filter (fun item => negb (item_deleted item))
                   (fetched_items (cycle_zotero c) library versions))
      /\ fetches_unique
           (libraryWrite storage (sync_cycle storage user library c))
           user library rest
  end.

(** Further concrete entities. *)
Module Sample.

Definition c3 : Collection :=
  {| coll_key := "C3"; coll_version := 2; coll_name := "Inbox" |}.

(** I9 again, newer, with the flag present but false. *)
Definition i9' : Item :=
  {| item_key := "I9"; item_version := 8;
     item_data := [("title", Js.Str "Kept"); ("deleted", Js.Bool false)] |}.

Definition lab : Group :=
  {| group_id := 8; group_version := 1; group_name := "Lab" |}.

(** A remote that reports new versions and nothing else: the deletion
    feed and both change lists are empty. *)
Definition bump_only (n : Z) : ZoteroApi :=
  {| zotero_deleted := fun _ _ =>
       Some {| del_version := Some n;
               del_data := {| del_collections := []; del_items := [] |} |};
     zotero_collectionVersions := fun _ _ =>
       Some {| vr_version := Some n; vr_data := [] |};
     zotero_collections := fun _ keys => [];
     zotero_itemVersions := fun _ _ =>
       Some {| vr_version := Some n; vr_data := [] |};
     zotero_items := fun _ keys => [] |}.

(** A remote where only a collection changed: the deletion and item
    queries answer null, the collection query answers at version [n] with
    the new collection C3. *)
Definition coll_only (n : Z) : ZoteroApi :=
  {| zotero_deleted := fun _ _ => None;
     zotero_collectionVersions := fun _ _ =>
       Some {| vr_version := Some n; vr_data := [("C3", n)] |};
     zotero_collections := fun _ keys => [c3];
     zotero_itemVersions := fun _ _ => None;
     zotero_items := fun _ keys => [] |}.

(** The store of the group library after a cycle that passed the group
    [lab] in: the snapshot written holds [lab] as its group. *)
Definition after_lab : Storage :=
  libraryWrite Ex.storage
    (sync_cycle Ex.storage Ex.user Ex.shared
       {| cycle_groupSync := Some lab; cycle_zotero := Ex.quiet |}).

End Sample.

(** * Properties *)

(** ** Membership through [includes] *)

Lemma includes_In (arr : list string) (k : string) :
  Js.includes arr k = true <-> In k arr.
Proof.
  unfold Js.includes. rewrite existsb_exists. split.
  - intros [x [Hin Hx]]. apply String.eqb_eq in Hx. now subst.
  - intros Hin. exists k. split; [assumption | apply String.eqb_refl].
Qed.

Lemma includes_not_In (arr : list string) (k : string) :
  Js.includes arr k = false <-> ~ In k arr.
Proof.
  rewrite <- includes_In.
  destruct (Js.includes arr k); split; intros H; congruence.
Qed.

(** ** The merge of one sequence *)

Section SyncObjectsFacts.

Variable T : Type.
Variable key : T -> string.

Lemma untouched_filter (objects : list T) (gone changed : list string) :
  untouched key objects gone changed =
  filter (fun obj => negb (Js.includes changed (key obj)))
    (filter (fun obj => negb (Js.includes gone (key obj))) objects).
Proof.
  induction objects as [| obj rest IH]; simpl; [reflexivity |].
  destruct (Js.includes gone (key obj)); simpl; [exact IH |].
  destruct (Js.includes changed (key obj)); simpl; [exact IH |].
  now rewrite IH.
Qed.

Lemma untouched_In (objects : list T) (gone changed : list string) (x : T) :
  In x (untouched key objects gone changed) <->
  In x objects /\ ~ In (key x) gone /\ ~ In (key x) changed.
Proof.
  rewrite untouched_filter, !filter_In, !negb_true_iff, !includes_not_In.
  tauto.
Qed.

Lemma untouched_nil (objects : list T) :
  untouched key objects [] [] = objects.
Proof.
  induction objects as [| obj rest IH]; simpl; [reflexivity | now rewrite IH].
Qed.

Lemma untouched_fixed (objects : list T) (gone changed : list string) :
  (forall x, In x objects -> ~ In (key x) gone /\ ~ In (key x) changed) ->
  untouched key objects gone changed = objects.
Proof.
  induction objects as [| obj rest IH]; simpl; intros H; [reflexivity |].
  destruct (H obj (or_introl eq_refl)) as [Hg Hc].
  apply includes_not_In in Hg, Hc. rewrite Hg, Hc.
  f_equal. apply IH. intros x Hx. apply H. now right.
Qed.

Lemma untouched_app (l1 l2 : list T) (gone changed : list string) :
  untouched key (l1 ++ l2) gone changed =
  untouched key l1 gone changed ++ untouched key l2 gone changed.
Proof.
  induction l1 as [| obj rest IH]; simpl; [reflexivity |].
  destruct (Js.includes gone (key obj)); [exact IH |].
  destruct (Js.includes changed (key obj)); [exact IH |].
  simpl. now rewrite IH.
Qed.

Lemma untouched_covered (l : list T) (gone changed : list string) :
  (forall x, In x l -> In (key x) changed) ->
  untouched key l gone changed = [].
Proof.
  induction l as [| obj rest IH]; simpl; intros H; [reflexivity |].
  assert (Hc : Js.includes changed (key obj) = true)
    by (apply includes_In, H; now left).
  rewrite Hc. destruct (Js.includes gone (key obj));
    apply IH; intros x Hx; apply H; now right.
Qed.

Lemma syncObjects_merge_spec (objects : list T) (sa : SyncActions T) :
  syncObjects key objects sa = merge_spec key objects sa.
Proof.
  unfold syncObjects, merge_spec, keys_of.
  now rewrite untouched_filter.
Qed.

Lemma syncObjects_idempotent (objects : list T) (sa : SyncActions T) :
  syncObjects key (syncObjects key objects sa) sa = syncObjects key objects sa.
Proof.
  rewrite !syncObjects_merge_spec. unfold merge_spec.
  rewrite untouched_app. f_equal.
  rewrite (untouched_covered (updated sa)).
  - rewrite app_nil_r. apply untouched_fixed.
    intros x Hx. apply untouched_In in Hx. tauto.
  - intros x Hx. unfold keys_of. now apply in_map.
Qed.

Lemma untouched_keys (objects : list T) (gone changed : list string) k :
  In k (keys_of key (untouched key objects gone changed)) ->
  In k (keys_of key objects) /\ ~ In k gone /\ ~ In k changed.
Proof.
  unfold keys_of. rewrite !in_map_iff. intros [x [Hk Hx]].
  apply untouched_In in Hx. destruct Hx as [Hx [Hg Hc]]. subst k.
  split; [exists x; now split | now split].
Qed.

Lemma untouched_unique (objects : list T) (gone changed : list string) :
  unique_keys key objects ->
  unique_keys key (untouched key objects gone changed).
Proof.
  unfold unique_keys.
  induction objects as [| obj rest IH]; simpl; intros Hnd; [constructor |].
  inversion Hnd as [| ? ? Hnotin Hrest]; subst.
  destruct (Js.includes gone (key obj)); [now apply IH |].
  destruct (Js.includes changed (key obj)); [now apply IH |].
  simpl. constructor; [| now apply IH].
  intros Hin. apply untouched_keys in Hin. now apply Hnotin.
Qed.

Lemma syncObjects_unique (objects : list T) (sa : SyncActions T) :
  unique_keys key objects ->
  unique_keys key (updated sa) ->
  unique_keys key (syncObjects key objects sa).
Proof.
  intros Hobj Hupd. rewrite syncObjects_merge_spec.
  unfold merge_spec, unique_keys, keys_of. rewrite map_app.
  apply NoDup_app.
  - now apply untouched_unique.
  - exact Hupd.
  - intros k Hk Hk'. apply untouched_keys in Hk. tauto.
Qed.

End SyncObjectsFacts.

(** ** The functions on the concrete library *)

Example libraryList_personal_then_groups :
  libraryList Ex.user [Ex.papers] = [Ex.personal; Ex.shared].
Proof.
  reflexivity.
Qed.

(** A remote with nothing to report gives a plan without actions, and
    applying it keeps the stored collections and items. *)
Example quiet_plan_changes_nothing :
  let plan :=
    librarySyncActions Ex.storage Ex.user Ex.personal None Ex.quiet in
  hasLibrarySyncActions plan = IsBoolean false
  /\ data_collections (librarySync Ex.storage Ex.user Ex.personal plan)
     = data_collections Ex.stored
  /\ data_items (librarySync Ex.storage Ex.user Ex.personal plan)
     = data_items Ex.stored.
Proof.
  repeat split.
Qed.

(** Collection C2 is deleted, C1 replaced at the end; item I3, flagged
    deleted, is not stored, and I9 is replaced. *)
Example tidy_plan_applied :
  let plan :=
    librarySyncActions Ex.storage Ex.user Ex.shared (Some Ex.papers)
      (Ex.tidy_at 12) in
  librarySync Ex.storage Ex.user Ex.shared plan
  = {| data_group := Some Ex.papers;
       data_versions := {| ver_collections := 12;
                           ver_items := 12;
                           ver_deleted := 12 |};
       data_collections := [Ex.c1'];
       data_items := [Ex.i9] |}
  /\ hasLibrarySyncActions plan = IsGroup Ex.papers.
Proof.
  split; reflexivity.
Qed.

(** ** The replica merger *)

(** C6: the merged sequence is the input entries whose key is neither in
    [deleted] nor the key of an entry of [updated], in their original
    order, followed by the entries of [updated] in their order; an entry
    is among the kept ones exactly when it is in the input and its key is
    in neither; with nothing deleted and nothing updated the sequence is
    unchanged. *)
Theorem syncObjects_keeps_untouched_then_appends
  (T : Type) (key : T -> string) (objects : list T) (sa : SyncActions T) :
  syncObjects key objects sa =
    untouched key objects (deleted sa) (keys_of key (updated sa))
      ++ updated sa
  /\ (forall x,
        In x (untouched key objects (deleted sa) (keys_of key (updated sa)))
        <-> In x objects
            /\ ~ In (key x) (deleted sa)
            /\ ~ In (key x) (keys_of key (updated sa)))
  /\ syncObjects key objects {| deleted := []; updated := [] |} = objects.
Proof.
  split; [| split].
  - apply syncObjects_merge_spec.
  - intros x. apply untouched_In.
  - rewrite syncObjects_merge_spec. unfold merge_spec. simpl.
    rewrite untouched_nil. apply app_nil_r.
Qed.

(** C4: applying a plan to the snapshot it produced gives that snapshot
    again: the collections and the items are the same sequences (and so
    are the group and the versions). *)
Theorem librarySync_idempotent
  (storage : Storage) (user : User) (library : Library)
  (plan : LibrarySyncActions) :
  let once := librarySync storage user library plan in
  let twice := librarySync (libraryWrite storage once) user library plan in
  data_collections twice = data_collections once
  /\ data_items twice = data_items once
  /\ twice = once.
Proof.
  cbv zeta. unfold librarySync, libraryWrite. cbn [libraryRead
    userWebLibrariesDir data_collections data_items].
  rewrite !syncObjects_idempotent. repeat split.
Qed.

(** C5, as stated, fails: two updated entries with the same key are both
    appended, so the key C1 occurs twice in the merged collections. *)
Lemma merge_duplicates_updated_key :
  ~ unique_keys coll_key
      (data_collections
         (librarySync Ex.storage Ex.user Ex.personal (Ex.plan_of Ex.twice))).
Proof.
  unfold unique_keys. cbn. intros H.
  inversion H as [| ? ? _ H1]; subst.
  inversion H1 as [| ? ? Hnotin _]; subst.
  apply Hnotin. now left.
Qed.

(** C5, amended: when no key occurs twice in the stored collections nor
    in the plan's updated collections, none occurs twice in the merged
    collections; and when no key occurs twice in the stored items nor in
    the plan's updated items, none occurs twice in the merged items. *)
Theorem librarySync_unique_keys
  (storage : Storage) (user : User) (library : Library)
  (plan : LibrarySyncActions) :
  let local := libraryRead storage (userWebLibrariesDir storage user) library in
  (unique_keys coll_key (data_collections local) ->
   unique_keys coll_key (updated (sync_collections plan)) ->
   unique_keys coll_key
     (data_collections (librarySync storage user library plan)))
  /\ (unique_keys item_key (data_items local) ->
      unique_keys item_key (updated (sync_items plan)) ->
      unique_keys item_key
        (data_items (librarySync storage user library plan))).
Proof.
  cbv zeta. unfold librarySync. cbn [data_collections data_items].
  split; intros Hlocal Hupdated; now apply syncObjects_unique.
Qed.

Lemma librarySync_unique_keys_witness :
  unique_keys coll_key
    (data_collections
       (librarySync Ex.storage Ex.user Ex.personal (Ex.plan_of Ex.both)))
  /\ unique_keys item_key
       (data_items
          (librarySync Ex.storage Ex.user Ex.personal (Ex.plan_of Ex.both))).
Proof.
  destruct (librarySync_unique_keys Ex.storage Ex.user Ex.personal
              (Ex.plan_of Ex.both)) as [Hc Hi].
  split; [apply Hc | apply Hi];
    unfold unique_keys; cbn;
    repeat (constructor; [cbn; intuition discriminate |]); constructor.
Defined.

(** C10: an updated entry whose key is also in [deleted] is in the merged
    sequence all the same: the merged sequence ends with the whole of
    [updated], after kept entries none of which has a deleted key. *)
Theorem syncObjects_update_survives_deletion
  (T : Type) (key : T -> string) (objects : list T) (sa : SyncActions T)
  (x : T) :
  In (key x) (deleted sa) ->
  In x (updated sa) ->
  In x (syncObjects key objects sa)
  /\ exists kept,
       syncObjects key objects sa = kept ++ updated sa
       /\ forall y, In y kept -> ~ In (key y) (deleted sa).
Proof.
  intros _ Hupd. rewrite syncObjects_merge_spec. unfold merge_spec. split.
  - apply in_or_app. now right.
  - eexists. split; [reflexivity |].
    intros y Hy. apply untouched_In in Hy. tauto.
Qed.

Lemma syncObjects_update_survives_deletion_witness :
  In Ex.c1' (syncObjects coll_key [Ex.c1; Ex.c2] Ex.both)
  /\ exists kept,
       syncObjects coll_key [Ex.c1; Ex.c2] Ex.both = kept ++ updated Ex.both
       /\ forall y, In y kept -> ~ In (coll_key y) (deleted Ex.both).
Proof.
  apply (syncObjects_update_survives_deletion Collection coll_key
           [Ex.c1; Ex.c2] Ex.both Ex.c1'); cbn; now left.
Defined.

(** C8, as stated, fails: the store of the group library holds a
    snapshot with the group Lab, the library passed to the merge carries
    the group Papers and the plan has no group; the merged snapshot has
    Papers, not the group of the stored snapshot. *)
Lemma merge_group_not_from_snapshot :
  let plan :=
    librarySyncActions Sample.after_lab Ex.user Ex.shared None Ex.quiet in
  ~ data_group (librarySync Sample.after_lab Ex.user Ex.shared plan)
    = match sync_group plan with
      | Some g => Some g
      | None =>
          data_group
            (libraryRead Sample.after_lab
               (userWebLibrariesDir Sample.after_lab Ex.user) Ex.shared)
      end.
Proof.
  cbv zeta. cbn. discriminate.
Qed.

(** C8, amended: the group of the merged snapshot is the plan's group
    when the plan has one, and otherwise the group carried by the library
    passed to the merge; the store is not read for it, so the merged
    snapshot's group is the same over any two stores. *)
Theorem librarySync_group
  (storage : Storage) (user : User) (library : Library)
  (plan : LibrarySyncActions) :
  data_group (librarySync storage user library plan)
  = match sync_group plan with
    | Some g => Some g
    | None => lib_group library
    end
  /\ forall storage' : Storage,
       data_group (librarySync storage' user library plan)
       = data_group (librarySync storage user library plan).
Proof.
  split; reflexivity.
Qed.

(** C9, as stated, fails: for a plan with a group and nothing else the
    function returns the group, not [true]. *)
Lemma group_plan_returns_group :
  let plan :=
    librarySyncActions Ex.storage Ex.user Ex.shared (Some Ex.papers)
      Ex.quiet in
  ~ ((hasLibrarySyncActions plan = IsBoolean false <-> no_actions plan)
     /\ (~ no_actions plan -> hasLibrarySyncActions plan = IsBoolean true)).
Proof.
  cbv zeta. intros [_ H].
  assert (Hplan : ~ no_actions
                      (librarySyncActions Ex.storage Ex.user Ex.shared
                         (Some Ex.papers) Ex.quiet))
    by (intros [Hg _]; discriminate).
  specialize (H Hplan). discriminate.
Qed.

(** C9, amended: [hasLibrarySyncActions] returns [false] exactly when the
    plan has no group and its four arrays are empty; when the plan has a
    group it returns that group; when it has no group and one of the
    arrays is not empty it returns [true]; so in every case other than
    the first its value is truthy. *)
Theorem hasLibrarySyncActions_false_iff (sync : LibrarySyncActions) :
  (hasLibrarySyncActions sync = IsBoolean false <-> no_actions sync)
  /\ (forall g, sync_group sync = Some g ->
                hasLibrarySyncActions sync = IsGroup g)
  /\ (sync_group sync = None -> ~ no_actions sync ->
      hasLibrarySyncActions sync = IsBoolean true)
  /\ (truthy_result (hasLibrarySyncActions sync) = true
      <-> ~ no_actions sync).
Proof.
  unfold hasLibrarySyncActions, no_actions.
  destruct sync as [g v [cd cu] [id iu]].
  destruct g as [g |];
    cbn [sync_group sync_collections sync_items deleted updated
         truthy_result].
  - split; [| split; [| split]].
    + split; [discriminate | intros [H _]; discriminate].
    + intros g' H. now injection H as ->.
    + discriminate.
    + split; [intros _ [H _]; discriminate | reflexivity].
  - assert (E : forall (A : Type) (l : list A),
               (0 <? List.length l)%nat = false <-> l = [])
      by (intros A [| a l]; cbn; split; congruence).
    assert (F : ((0 <? List.length cd)%nat || (0 <? List.length cu)%nat
                 || (0 <? List.length id)%nat || (0 <? List.length iu)%nat)
                = false
                <-> None = None :> option Group
                    /\ cd = [] /\ cu = [] /\ id = [] /\ iu = []).
    { rewrite !orb_false_iff, !E. tauto. }
    split; [| split; [| split]].
    + rewrite <- F. split; [intros H; now injection H | intros H; now rewrite H].
    + discriminate.
    + intros _ H. rewrite <- F in H. apply not_false_is_true in H.
      now rewrite H.
    + rewrite <- F, not_false_iff_true. tauto.
Qed.

Lemma hasLibrarySyncActions_false_iff_witness :
  hasLibrarySyncActions (Ex.plan_of Ex.both) = IsBoolean true.
Proof.
  destruct (hasLibrarySyncActions_false_iff (Ex.plan_of Ex.both))
    as [_ [_ [H _]]].
  apply H; [reflexivity |].
  intros [_ [Hd _]]. discriminate.
Defined.

(** ** The delta planner *)

(** The [for] loops of the planner, as the arrays they leave. *)

Lemma push_deleted_collections (keys : list string)
  (s : LibrarySyncActions) :
  fold_left (fun s k => with_collections s (fun c => push_deleted c k))
            keys s
  = with_collections s
      (fun c => {| deleted := deleted c ++ keys; updated := updated c |}).
Proof.
  revert s. induction keys as [| k keys IH]; intros [g v [cd cu] i].
  - unfold with_collections. cbn. now rewrite app_nil_r.
  - cbn [fold_left]. rewrite IH. unfold with_collections, push_deleted. cbn.
    now rewrite <- app_assoc.
Qed.

Lemma push_deleted_items (keys : list string) (s : LibrarySyncActions) :
  fold_left (fun s k => with_items s (fun i => push_deleted i k)) keys s
  = with_items s
      (fun i => {| deleted := deleted i ++ keys; updated := updated i |}).
Proof.
  revert s. induction keys as [| k keys IH]; intros [g v c [id iu]].
  - unfold with_items. cbn. now rewrite app_nil_r.
  - cbn [fold_left]. rewrite IH. unfold with_items, push_deleted. cbn.
    now rewrite <- app_assoc.
Qed.

Lemma push_updated_collections (collections : list Collection)
  (s : LibrarySyncActions) :
  fold_left (fun s collection =>
               with_collections s (fun c => push_updated c collection))
            collections s
  = with_collections s
      (fun c => {| deleted := deleted c;
                   updated := updated c ++ collections |}).
Proof.
  revert s. induction collections as [| x xs IH]; intros [g v [cd cu] i].
  - unfold with_collections. cbn. now rewrite app_nil_r.
  - cbn [fold_left]. rewrite IH. unfold with_collections, push_updated. cbn.
    now rewrite <- app_assoc.
Qed.

Lemma classify_items (items : list Item) (s : LibrarySyncActions) :
  fold_left (fun s item =>
               if item_deleted item
               then with_items s (fun i => push_deleted i (item_key item))
               else with_items s (fun i => push_updated i item))
            items s
  = with_items s
      (fun i =>
         {| deleted := deleted i
                       ++ keys_of item_key (filter item_deleted items);
            updated := updated i
                       ++ filter (fun item => negb (item_deleted item))
                                 items |}).
Proof.
  revert s. induction items as [| x xs IH]; intros [g v c [id iu]].
  - unfold with_items. cbn. now rewrite !app_nil_r.
  - cbn [fold_left filter]. rewrite IH.
    unfold with_items, push_deleted, push_updated.
    destruct (item_deleted x); cbn; now rewrite <- app_assoc.
Qed.

(** The plan in closed form: the group handed in, the version of each
    response or zero, and the arrays filled from the three responses. *)
Lemma librarySyncActions_closed_form
  (storage : Storage) (user : User) (library : Library)
  (groupSync : option Group) (zotero : ZoteroApi) :
  let versions := libraryReadVersions storage user library in
  let feed := deletion_feed zotero library versions in
  let items := fetched_items zotero library versions in
  librarySyncActions storage user library groupSync zotero =
  {| sync_group := groupSync;
     sync_versions :=
       {| ver_collections :=
            match zotero_collectionVersions zotero library
                    (ver_collections versions) with
            | Some r => Js.or_number (vr_version r) 0
            | None => 0
            end;
          ver_items :=
            match zotero_itemVersions zotero library (ver_items versions)
            with
            | Some r => Js.or_number (vr_version r) 0
            | None => 0
            end;
          ver_deleted :=
            match zotero_deleted zotero library (ver_deleted versions) with
            | Some r => Js.or_number (del_version r) 0
            | None => 0
            end |};
     sync_collections :=
       {| deleted := del_collections feed;
          updated := fetched_collections zotero library versions |};
     sync_items :=
       {| deleted := del_items feed
                     ++ keys_of item_key (filter item_deleted items);
          updated := filter (fun item => negb (item_deleted item)) items |}
  |}.
Proof.
  cbv zeta.
  unfold librarySyncActions, check_deletes, check_collections, check_items,
    deletion_feed, fetched_collections, fetched_items.
  destruct (zotero_deleted zotero library _) as [d |];
    destruct (zotero_collectionVersions zotero library _) as [cv |];
    destruct (zotero_itemVersions zotero library _) as [iv |];
    rewrite ?push_deleted_collections, ?push_deleted_items,
      ?push_updated_collections, ?classify_items;
    destruct groupSync; cbn; rewrite ?app_nil_r; reflexivity.
Qed.

(** C1, at a store holding the cursors 7, 9 and 5: when the deletion and
    item queries answer null and the collection response carries no
    version, the plan's three cursors are 0, not the stored ones. *)
Theorem fallback_resets_cursors_to_zero :
  libraryReadVersions Ex.storage Ex.user Ex.personal
  = {| ver_collections := 7; ver_items := 9; ver_deleted := 5 |}
  /\ sync_versions
       (librarySyncActions Ex.storage Ex.user Ex.personal None Ex.unversioned)
     = {| ver_collections := 0; ver_items := 0; ver_deleted := 0 |}
  /\ updated
       (sync_collections
          (librarySyncActions Ex.storage Ex.user Ex.personal None
             Ex.unversioned))
     = [Ex.c1'].
Proof.
  repeat split.
Qed.

(** C3, as stated, fails: when the deletion feed lists collection C1 and
    the collection fetch returns C1, the plan has C1 both in the deleted
    keys and among the updated collections. *)
Lemma plan_keeps_key_in_both :
  ~ overlap_free coll_key
      (sync_collections
         (librarySyncActions Ex.storage Ex.user Ex.personal None
            (Ex.remote_at 12))).
Proof.
  intros H. apply (H "C1"); cbn; now left.
Qed.

Lemma disjoint_keys_spec (a b : list string) :
  disjoint_keys a b = true <-> forall k, In k a -> ~ In k b.
Proof.
  unfold disjoint_keys. rewrite forallb_forall.
  split; intros H k Hk; specialize (H k Hk).
  - now apply includes_not_In, negb_true_iff.
  - now apply negb_true_iff, includes_not_In.
Qed.

(** C3, amended: no key is both in the deleted keys and among the updated
    collections of a plan when the deletion feed lists no key of a fetched
    collection; and no key is both in the deleted keys and among the
    updated items of a plan when no fetched item without the flag has a
    key that the deletion feed lists or that a fetched item with the flag
    has. *)
Theorem plan_overlap_free_when_feeds_disjoint
  (storage : Storage) (user : User) (library : Library)
  (groupSync : option Group) (zotero : ZoteroApi) :
  let versions := libraryReadVersions storage user library in
  let feed := deletion_feed zotero library versions in
  let collections := fetched_collections zotero library versions in
  let items := fetched_items zotero library versions in
  let plan := librarySyncActions storage user library groupSync zotero in
  (disjoint_keys (del_collections feed) (keys_of coll_key collections)
     = true ->
   overlap_free coll_key (sync_collections plan))
  /\ (disjoint_keys
        (del_items feed ++ keys_of item_key (filter item_deleted items))
        (keys_of item_key
           (filter (fun item => negb (item_deleted item)) items))
      = true ->
      overlap_free item_key (sync_items plan)).
Proof.
  cbv zeta. rewrite librarySyncActions_closed_form. cbv zeta.
  unfold overlap_free. cbn [sync_collections sync_items deleted updated].
  split; intros H; now apply disjoint_keys_spec.
Qed.

Lemma plan_overlap_free_when_feeds_disjoint_witness :
  overlap_free coll_key
    (sync_collections
       (librarySyncActions Ex.storage Ex.user Ex.personal None
          (Ex.tidy_at 12)))
  /\ overlap_free item_key
       (sync_items
          (librarySyncActions Ex.storage Ex.user Ex.personal None
             (Ex.tidy_at 12))).
Proof.
  destruct (plan_overlap_free_when_feeds_disjoint Ex.storage Ex.user
              Ex.personal None (Ex.tidy_at 12)) as [Hc Hi].
  split; [apply Hc | apply Hi]; reflexivity.
Defined.

(** C7: of the items fetched after the item-change query, one whose
    payload has the deletion flag set gets its key into the deleted keys
    of the items and is not among the updated items; one without the flag
    is among the updated items. *)
Theorem flagged_item_is_deleted_not_updated
  (storage : Storage) (user : User) (library : Library)
  (groupSync : option Group) (zotero : ZoteroApi)
  (itemChanges : VersionsResponse) (item : Item) :
  let versions := libraryReadVersions storage user library in
  let plan := librarySyncActions storage user library groupSync zotero in
  zotero_itemVersions zotero library (ver_items versions)
    = Some itemChanges ->
  In item (zotero_items zotero library (Js.keys (vr_data itemChanges))) ->
  if item_deleted item
  then In (item_key item) (deleted (sync_items plan))
       /\ ~ In item (updated (sync_items plan))
  else In item (updated (sync_items plan)).
Proof.
  cbv zeta. intros Hresp Hin.
  rewrite librarySyncActions_closed_form. cbv zeta.
  cbn [sync_items deleted updated].
  unfold fetched_items. rewrite Hresp.
  destruct (item_deleted item) eqn:Hflag.
  - split.
    + apply in_or_app. right. unfold keys_of. apply in_map.
      apply filter_In. now split.
    + intros Hupd. apply filter_In in Hupd. destruct Hupd as [_ Hupd].
      rewrite Hflag in Hupd. discriminate.
  - apply filter_In. split; [assumption | now rewrite Hflag].
Qed.

Lemma flagged_item_is_deleted_not_updated_witness :
  In "I3"%string
     (deleted
        (sync_items
           (librarySyncActions Ex.storage Ex.user Ex.personal None
              (Ex.remote_at 12))))
  /\ ~ In Ex.i3
         (updated
            (sync_items
               (librarySyncActions Ex.storage Ex.user Ex.personal None
                  (Ex.remote_at 12)))).
Proof.
  apply (flagged_item_is_deleted_not_updated Ex.storage Ex.user Ex.personal
           None (Ex.remote_at 12)
           {| vr_version := Some 12; vr_data := [("I3", 12); ("I9", 12)] |}
           Ex.i3).
  - reflexivity.
  - cbn. now left.
Defined.

(** ** Cursors across cycles *)

Lemma or_number_zero (n : Z) : Js.or_number (Some n) 0 = n.
Proof.
  unfold Js.or_number. destruct (n =? 0) eqn:E; [| reflexivity].
  apply Z.eqb_eq in E. now subst.
Qed.

Lemma reported_version (version : option Z) (since : Z) :
  reports_at_least version since = true ->
  since <= Js.or_number version 0.
Proof.
  destruct version as [n |]; cbn [reports_at_least]; [| discriminate].
  rewrite or_number_zero. apply Z.leb_le.
Qed.

(** One cycle against a remote that answers every query with a version
    not below the stored cursor leaves cursors not below the stored
    ones. *)
Lemma sync_cycle_advances
  (storage : Storage) (user : User) (library : Library) (c : Cycle) :
  remote_advances (cycle_zotero c) library
    (libraryReadVersions storage user library) = true ->
  versions_le (libraryReadVersions storage user library)
    (data_versions (sync_cycle storage user library c)).
Proof.
  unfold remote_advances, sync_cycle, librarySync.
  cbn [data_versions]. rewrite librarySyncActions_closed_form. cbv zeta.
  cbn [sync_versions]. unfold versions_le.
  cbn [ver_collections ver_items ver_deleted].
  destruct (zotero_deleted _ library _) as [d |]; [| discriminate].
  destruct (zotero_collectionVersions _ library _) as [cv |];
    [| rewrite andb_false_r; discriminate].
  destruct (zotero_itemVersions _ library _) as [iv |];
    [| rewrite andb_false_r; discriminate].
  rewrite !andb_true_iff. intros [[Hd Hc] Hi].
  repeat split; now apply reported_version.
Qed.

(** The cursors of an applied snapshot are the versions the remote
    reported, so after an application at version 12 an application against
    responses at version 10 lowers all three. *)
Lemma cursors_follow_remote_down :
  ~ cursors_nondecreasing
      (sync_run Ex.storage Ex.user Ex.personal
         [ {| cycle_groupSync := None; cycle_zotero := Ex.tidy_at 12 |};
           {| cycle_groupSync := None; cycle_zotero := Ex.tidy_at 10 |} ]).
Proof.
  unfold cursors_nondecreasing, versions_le. cbn.
  intros [[H _] _]. cbn in H. lia.
Qed.

(** Over cycles in each of which the three queries are answered with a
    version not below the stored cursor, the cursors of the applied
    snapshots never decrease, from the stored ones through every
    application. *)
Lemma cursors_nondecreasing_when_remote_advances
  (storage : Storage) (user : User) (library : Library)
  (cycles : list Cycle) :
  advancing_run storage user library cycles = true ->
  nondecreasing_from (libraryReadVersions storage user library)
    (sync_run storage user library cycles)
  /\ cursors_nondecreasing (sync_run storage user library cycles).
Proof.
  intros H.
  assert (Hfrom : nondecreasing_from
                    (libraryReadVersions storage user library)
                    (sync_run storage user library cycles)).
  { revert storage H.
    induction cycles as [| c rest IH]; intros storage H; cbn; [exact I |].
    cbn in H. apply andb_true_iff in H. destruct H as [Hc Hrest]. split.
    - now apply sync_cycle_advances.
    - exact (IH _ Hrest). }
  split; [exact Hfrom |].
  destruct cycles as [| c rest]; [exact I |].
  cbn in Hfrom |- *. exact (proj2 Hfrom).
Qed.

(** C2, on a remote whose versions only grow: the first cycle is answered
    at version 12 on the three streams; in the second only a collection
    has changed, at version 13, and the deletion and item queries answer
    null.  The applied cursors are 12, 12, 12 and then 13, 0, 0: the item
    and deletion cursors fall back to zero. *)
Theorem cursors_drop_when_stream_quiet :
  let run :=
    sync_run Ex.storage Ex.user Ex.personal
      [ {| cycle_groupSync := None; cycle_zotero := Ex.tidy_at 12 |};
        {| cycle_groupSync := None; cycle_zotero := Sample.coll_only 13 |} ]
  in
  map data_versions run
  = [ {| ver_collections := 12; ver_items := 12; ver_deleted := 12 |};
      {| ver_collections := 13; ver_items := 0; ver_deleted := 0 |} ]
  /\ ~ cursors_nondecreasing run.
Proof.
  cbv zeta. split; [reflexivity |].
  unfold cursors_nondecreasing, versions_le. cbn.
  intros [[_ [H _]] _]. cbn in H. lia.
Qed.

(** * Further properties *)

(** ** The list of libraries *)

(** X1: [libraryList] yields one library more than there are groups: the
    user's library first, with the user's id and no group, then the
    library of each group at the group's position, with the group's id and
    the group itself; every library listed is of one of these two
    shapes. *)
Theorem libraryList_shape (user : User) (groups : list Group) :
  List.length (libraryList user groups) = S (List.length groups)
  /\ nth_error (libraryList user groups) 0
     = Some {| lib_type := UserLibrary;
               lib_id := userID user;
               lib_group := None |}
  /\ (forall n g,
        nth_error groups n = Some g ->
        nth_error (libraryList user groups) (S n)
        = Some {| lib_type := GroupLibrary;
                  lib_id := group_id g;
                  lib_group := Some g |})
  /\ (forall lib,
        In lib (libraryList user groups) ->
        match lib_type lib with
        | UserLibrary => lib_id lib = userID user /\ lib_group lib = None
        | GroupLibrary =>
            exists g, In g groups
                      /\ lib_group lib = Some g
                      /\ lib_id lib = group_id g
        end).
Proof.
  unfold libraryList. cbn [app]. repeat split.
  - cbn. now rewrite length_map.
  - intros n g Hn. cbn [nth_error].
    rewrite nth_error_map, Hn. reflexivity.
  - intros lib [Hlib | Hlib].
    + subst lib. cbn. now split.
    + apply in_map_iff in Hlib. destruct Hlib as [g [Hlib Hg]].
      subst lib. cbn. exists g. now repeat split.
Qed.

(** ** More on the merge of one sequence *)

Section SyncObjectsMore.

Variable T : Type.
Variable key : T -> string.

Lemma includes_app (a b : list string) (k : string) :
  Js.includes (a ++ b) k = Js.includes a k || Js.includes b k.
Proof.
  unfold Js.includes. apply existsb_app.
Qed.

Lemma untouched_twice (objects : list T) (d1 d2 changed : list string) :
  untouched key (untouched key objects d1 []) d2 changed
  = untouched key objects (d1 ++ d2) changed.
Proof.
  induction objects as [| obj rest IH]; cbn [untouched]; [reflexivity |].
  rewrite includes_app.
  destruct (Js.includes d1 (key obj)); cbn [orb]; [exact IH |].
  cbn [Js.includes existsb untouched].
  destruct (Js.includes d2 (key obj)); [exact IH |].
  destruct (Js.includes changed (key obj)); [exact IH |].
  now rewrite IH.
Qed.

Lemma filter_none (f : T -> bool) (l : list T) :
  (forall x, In x l -> f x = false) -> filter f l = [].
Proof.
  induction l as [| a l IH]; cbn; intros H; [reflexivity |].
  rewrite (H a (or_introl eq_refl)). apply IH.
  intros x Hx. apply H. now right.
Qed.

Lemma untouched_one (objects : list T) (k : string) :
  unique_keys key objects ->
  In k (keys_of key objects) ->
  exists before old after,
    objects = before ++ old :: after
    /\ key old = k
    /\ untouched key objects [] [k] = before ++ after.
Proof.
  unfold unique_keys, keys_of.
  induction objects as [| obj rest IH]; cbn [map In]; intros Hnd Hin;
    [easy |].
  inversion Hnd as [| ? ? Hfresh Hrest]; subst.
  cbn [untouched Js.includes existsb]. rewrite orb_false_r.
  destruct (String.eqb_spec (key obj) k) as [Heq | Hneq].
  - exists [], obj, rest. repeat split; [exact Heq |].
    cbn [app]. apply untouched_fixed. intros x Hx. split; [easy |].
    intros [Hk | []]. apply Hfresh. rewrite Heq, Hk. now apply in_map.
  - destruct Hin as [Hin | Hin]; [easy |].
    destruct (IH Hrest Hin) as [before [old [after [E [Hk Hu]]]]].
    exists (obj :: before), old, after. repeat split.
    + cbn [app]. now rewrite E.
    + exact Hk.
    + cbn [app]. now rewrite Hu.
Qed.

Lemma merged_keys (objects : list T) (sa : SyncActions T) (k : string) :
  In k (keys_of key (syncObjects key objects sa))
  <-> In k (keys_of key (updated sa))
      \/ (In k (keys_of key objects)
          /\ ~ In k (deleted sa)
          /\ ~ In k (keys_of key (updated sa))).
Proof.
  rewrite syncObjects_merge_spec. unfold merge_spec, keys_of at 1.
  rewrite map_app, in_app_iff. split.
  - intros [H | H]; [right | now left]. now apply untouched_keys.
  - intros [H | [Hin [Hd Hu]]]; [now right | left].
    unfold keys_of in Hin. apply in_map_iff in Hin.
    destruct Hin as [x [Hx Hin]]. subst k.
    apply in_map. apply untouched_In. now repeat split.
Qed.

(** X2: the keys of the merged sequence are the keys of the updated
    entries together with the keys of the input that are neither deleted
    nor updated; so a deleted key that no update carries is gone. *)
Theorem syncObjects_keys (objects : list T) (sa : SyncActions T)
  (k : string) :
  (In k (keys_of key (syncObjects key objects sa))
   <-> In k (keys_of key (updated sa))
       \/ (In k (keys_of key objects)
           /\ ~ In k (deleted sa)
           /\ ~ In k (keys_of key (updated sa))))
  /\ (In k (deleted sa) /\ ~ In k (keys_of key (updated sa))
      -> ~ In k (keys_of key (syncObjects key objects sa))).
Proof.
  split; [apply merged_keys |].
  intros [Hd Hu] Hin. apply merged_keys in Hin. tauto.
Qed.

(** X3: for a key that some update carries, the merged sequence holds
    exactly the updated entries with that key, in their order: every
    stored entry with the key is replaced. *)
Theorem syncObjects_replaces_key (objects : list T) (sa : SyncActions T)
  (k : string) :
  In k (keys_of key (updated sa)) ->
  filter (fun obj => String.eqb (key obj) k) (syncObjects key objects sa)
  = filter (fun obj => String.eqb (key obj) k) (updated sa).
Proof.
  intros Hk. rewrite syncObjects_merge_spec. unfold merge_spec.
  rewrite filter_app, filter_none; [reflexivity |].
  intros x Hx. apply untouched_In in Hx. destruct Hx as [_ [_ Hx]].
  apply String.eqb_neq. intros E. apply Hx. now rewrite E.
Qed.

(** X4: applying deletions alone and then a further action set is
    applying the one action set that deletes the keys of both and carries
    the updates of the second. *)
Theorem syncObjects_after_deletions (objects : list T)
  (d1 d2 : list string) (u : list T) :
  syncObjects key
    (syncObjects key objects {| deleted := d1; updated := [] |})
    {| deleted := d2; updated := u |}
  = syncObjects key objects {| deleted := d1 ++ d2; updated := u |}.
Proof.
  rewrite !syncObjects_merge_spec. unfold merge_spec.
  cbn [deleted updated keys_of map]. rewrite app_nil_r.
  now rewrite untouched_twice.
Qed.

(** X5: an update whose key is not in the sequence is appended, and the
    sequence is otherwise as it was. *)
Theorem syncObjects_inserts_fresh (objects : list T) (x : T) :
  ~ In (key x) (keys_of key objects) ->
  syncObjects key objects {| deleted := []; updated := [x] |}
  = objects ++ [x].
Proof.
  intros Hfresh. rewrite syncObjects_merge_spec. unfold merge_spec.
  cbn [deleted updated keys_of map]. f_equal.
  apply untouched_fixed. intros y Hy. split; [easy |].
  intros [E | []]. apply Hfresh. rewrite E. unfold keys_of. now apply in_map.
Qed.

(** X6: an update whose key is in a sequence without repeated keys takes
    the stored entry of that key out of its place and puts the update at
    the end; the entries before and after keep their order. *)
Theorem syncObjects_moves_to_end (objects : list T) (x : T) :
  unique_keys key objects ->
  In (key x) (keys_of key objects) ->
  exists before old after,
    objects = before ++ old :: after
    /\ key old = key x
    /\ syncObjects key objects {| deleted := []; updated := [x] |}
       = before ++ after ++ [x].
Proof.
  intros Hu Hin.
  destruct (untouched_one objects (key x) Hu Hin)
    as [before [old [after [E [Hk Hun]]]]].
  exists before, old, after. repeat split; [exact E | exact Hk |].
  rewrite syncObjects_merge_spec. unfold merge_spec.
  cbn [deleted updated keys_of map]. rewrite Hun. now rewrite app_assoc.
Qed.

End SyncObjectsMore.

Lemma syncObjects_replaces_key_witness :
  filter (fun obj => String.eqb (coll_key obj) "C1")
         (syncObjects coll_key [Ex.c1; Ex.c2] Ex.both)
  = filter (fun obj => String.eqb (coll_key obj) "C1") (updated Ex.both).
Proof.
  apply (syncObjects_replaces_key Collection coll_key [Ex.c1; Ex.c2]
           Ex.both "C1").
  cbn. now left.
Defined.

Lemma syncObjects_inserts_fresh_witness :
  syncObjects coll_key [Ex.c1; Ex.c2]
    {| deleted := []; updated := [Sample.c3] |}
  = [Ex.c1; Ex.c2] ++ [Sample.c3].
Proof.
  apply (syncObjects_inserts_fresh Collection coll_key [Ex.c1; Ex.c2]
           Sample.c3).
  cbn. intuition discriminate.
Defined.

Lemma syncObjects_moves_to_end_witness :
  exists before old after,
    [Ex.c1; Ex.c2] = before ++ old :: after
    /\ coll_key old = coll_key Ex.c1'
    /\ syncObjects coll_key [Ex.c1; Ex.c2]
         {| deleted := []; updated := [Ex.c1'] |}
       = before ++ after ++ [Ex.c1'].
Proof.
  apply (syncObjects_moves_to_end Collection coll_key [Ex.c1; Ex.c2]
           Ex.c1').
  - unfold unique_keys. cbn.
    repeat (constructor; [cbn; intuition discriminate |]). constructor.
  - cbn. now left.
Defined.

(** ** More on the delta planner *)

Lemma or_number_default (version : option Z) :
  Js.or_number version 0 = match version with Some n => n | None => 0 end.
Proof.
  destruct version as [n |]; [apply or_number_zero | reflexivity].
Qed.

(** X7: the plan lists what the remote reported, in the remote's order:
    the deleted collection keys are those of the deletion feed, the
    updated collections are the fetched ones; the deleted item keys are
    those of the deletion feed followed by the keys of the fetched items
    flagged deleted, the updated items are the fetched items without the
    flag; the group is the one passed in. *)
Theorem plan_follows_remote_order
  (storage : Storage) (user : User) (library : Library)
  (groupSync : option Group) (zotero : ZoteroApi) :
  let versions := libraryReadVersions storage user library in
  let feed := deletion_feed zotero library versions in
  let items := fetched_items zotero library versions in
  let plan := librarySyncActions storage user library groupSync zotero in
  sync_group plan = groupSync
  /\ deleted (sync_collections plan) = del_collections feed
  /\ updated (sync_collections plan)
     = fetched_collections zotero library versions
  /\ deleted (sync_items plan)
     = del_items feed ++ keys_of item_key (filter item_deleted items)
  /\ updated (sync_items plan)
     = filter (fun item => negb (item_deleted item)) items.
Proof.
  cbv zeta. rewrite librarySyncActions_closed_form. cbv zeta.
  repeat split.
Qed.

(** X8: each cursor of the plan is the version its response reports, zero
    included, and 0 when the response is null or carries no version; the
    stored cursors enter only as the arguments of the queries. *)
Theorem plan_versions_reported_or_zero
  (storage : Storage) (user : User) (library : Library)
  (groupSync : option Group) (zotero : ZoteroApi) :
  let versions := libraryReadVersions storage user library in
  let plan := librarySyncActions storage user library groupSync zotero in
  let reported (version : option (option Z)) :=
    match version with
    | Some (Some n) => n
    | _ => 0
    end in
  ver_deleted (sync_versions plan)
    = reported (option_map del_version
                  (zotero_deleted zotero library (ver_deleted versions)))
  /\ ver_collections (sync_versions plan)
     = reported (option_map vr_version
                   (zotero_collectionVersions zotero library
                      (ver_collections versions)))
  /\ ver_items (sync_versions plan)
     = reported (option_map vr_version
                   (zotero_itemVersions zotero library (ver_items versions))).
Proof.
  cbv zeta. rewrite librarySyncActions_closed_form. cbv zeta.
  cbn [sync_versions ver_deleted ver_collections ver_items].
  destruct (zotero_deleted zotero library _) as [d |];
    destruct (zotero_collectionVersions zotero library _) as [cv |];
    destruct (zotero_itemVersions zotero library _) as [iv |];
    cbn [option_map]; rewrite ?or_number_default;
    repeat split;
    try (destruct (del_version d)); try (destruct (vr_version cv));
    try (destruct (vr_version iv)); reflexivity.
Qed.

Lemma truthy_result_false (sync : LibrarySyncActions) :
  truthy_result (hasLibrarySyncActions sync) = false <-> no_actions sync.
Proof.
  unfold hasLibrarySyncActions, no_actions.
  destruct sync as [g v [cd cu] [id iu]].
  cbn [sync_group sync_collections sync_items deleted updated].
  destruct g as [g |]; cbn [truthy_result].
  - split; [discriminate | intros [H _]; discriminate].
  - destruct cd, cu, id, iu; cbn; split; intros H; try discriminate;
      try (repeat split; reflexivity);
      destruct H as [_ [H1 [H2 [H3 H4]]]]; discriminate.
Qed.

Lemma filter_both_nil (A : Type) (f : A -> bool) (l : list A) :
  filter f l = [] ->
  filter (fun x => negb (f x)) l = [] ->
  l = [].
Proof.
  destruct l as [| a l]; [reflexivity |]. cbn.
  destruct (f a); cbn; discriminate.
Qed.

(** X9: a plan has no actions ([hasLibrarySyncActions] is falsy) exactly
    when no group was passed in, the deletion feed lists no key and the
    two fetches return nothing; what versions the responses report plays
    no part. *)
Theorem plan_without_actions_iff_remote_empty
  (storage : Storage) (user : User) (library : Library)
  (groupSync : option Group) (zotero : ZoteroApi) :
  let versions := libraryReadVersions storage user library in
  let feed := deletion_feed zotero library versions in
  let plan := librarySyncActions storage user library groupSync zotero in
  truthy_result (hasLibrarySyncActions plan) = false
  <-> groupSync = None
      /\ del_collections feed = []
      /\ del_items feed = []
      /\ fetched_collections zotero library versions = []
      /\ fetched_items zotero library versions = [].
Proof.
  cbv zeta. rewrite truthy_result_false.
  rewrite librarySyncActions_closed_form. cbv zeta.
  unfold no_actions.
  cbn [sync_group sync_collections sync_items deleted updated].
  split.
  - intros [Hg [Hc [Hf [Hd Hu]]]].
    apply app_eq_nil in Hd. destruct Hd as [Hd Hk].
    unfold keys_of in Hk. apply map_eq_nil in Hk.
    repeat split; try assumption.
    now apply (filter_both_nil _ item_deleted).
  - intros [Hg [Hc [Hd [Hf Hi]]]]. rewrite Hc, Hd, Hf, Hi. now repeat split.
Qed.

Lemma get_missing (obj : list (string * Js.value)) (name : string) :
  ~ In name (Js.keys obj) -> Js.get obj name = Js.Undefined.
Proof.
  unfold Js.keys.
  induction obj as [| [k v] rest IH]; cbn; intros H; [reflexivity |].
  destruct (String.eqb_spec k name) as [E | _]; [tauto |].
  apply IH. tauto.
Qed.

(** X10: a fetched item whose payload has no ["deleted"] entry is among
    the updated items of the plan. *)
Theorem item_without_flag_entry_is_updated
  (storage : Storage) (user : User) (library : Library)
  (groupSync : option Group) (zotero : ZoteroApi) (item : Item) :
  let versions := libraryReadVersions storage user library in
  let plan := librarySyncActions storage user library groupSync zotero in
  In item (fetched_items zotero library versions) ->
  ~ In "deleted"%string (Js.keys (item_data item)) ->
  In item (updated (sync_items plan)).
Proof.
  cbv zeta. intros Hin Hmissing.
  rewrite librarySyncActions_closed_form. cbv zeta.
  cbn [sync_items updated]. apply filter_In. split; [assumption |].
  unfold item_deleted. now rewrite get_missing.
Qed.

Lemma item_without_flag_entry_is_updated_witness :
  In Ex.i9
     (updated
        (sync_items
           (librarySyncActions Ex.storage Ex.user Ex.personal None
              (Ex.remote_at 12)))).
Proof.
  apply (item_without_flag_entry_is_updated Ex.storage Ex.user Ex.personal
           None (Ex.remote_at 12) Ex.i9).
  - cbn. right. now left.
  - cbn. intuition discriminate.
Defined.

(** ** Plans applied *)

(** X11: applying a plan without actions returns the stored collections
    and items as they are, with the library's own group. *)
Theorem merge_without_actions_keeps_sequences
  (storage : Storage) (user : User) (library : Library)
  (plan : LibrarySyncActions) :
  let local := libraryRead storage (userWebLibrariesDir storage user) library in
  truthy_result (hasLibrarySyncActions plan) = false ->
  data_collections (librarySync storage user library plan)
  = data_collections local
  /\ data_items (librarySync storage user library plan) = data_items local
  /\ data_group (librarySync storage user library plan) = lib_group library.
Proof.
  cbv zeta. intros H. apply truthy_result_false in H.
  destruct H as [Hg [Hcd [Hcu [Hid Hiu]]]].
  unfold librarySync. cbn [data_collections data_items data_group].
  rewrite !syncObjects_merge_spec. unfold merge_spec.
  rewrite Hg, Hcd, Hcu, Hid, Hiu. cbn [keys_of map Js.or_object].
  now rewrite !untouched_nil, !app_nil_r.
Qed.

Lemma merge_without_actions_keeps_sequences_witness :
  let plan :=
    librarySyncActions Ex.storage Ex.user Ex.shared None
      (Sample.bump_only 12) in
  data_collections (librarySync Ex.storage Ex.user Ex.shared plan)
  = [Ex.c1; Ex.c2]
  /\ data_items (librarySync Ex.storage Ex.user Ex.shared plan) = [Ex.i9]
  /\ data_group (librarySync Ex.storage Ex.user Ex.shared plan)
     = Some Ex.papers.
Proof.
  apply (merge_without_actions_keeps_sequences Ex.storage Ex.user Ex.shared
           (librarySyncActions Ex.storage Ex.user Ex.shared None
              (Sample.bump_only 12))).
  reflexivity.
Defined.

(** The sequences of the snapshot a cycle applies, from the store and the
    remote. *)
Lemma sync_cycle_sequences
  (storage : Storage) (user : User) (library : Library) (c : Cycle) :
  let versions := libraryReadVersions storage user library in
  let local := libraryRead storage (userWebLibrariesDir storage user) library in
  let feed := deletion_feed (cycle_zotero c) library versions in
  let items := fetched_items (cycle_zotero c) library versions in
  data_collections (sync_cycle storage user library c)
  = syncObjects coll_key (data_collections local)
      {| deleted := del_collections feed;
         updated := fetched_collections (cycle_zotero c) library versions |}
  /\ data_items (sync_cycle storage user library c)
     = syncObjects item_key (data_items local)
         {| deleted := del_items feed
                       ++ keys_of item_key (filter item_deleted items);
            updated := filter (fun item => negb (item_deleted item)) items |}.
Proof.
  cbv zeta. unfold sync_cycle, librarySync.
  cbn [data_collections data_items].
  rewrite librarySyncActions_closed_form. cbv zeta.
  split; reflexivity.
Qed.

(** X12: after a cycle, an item the item fetch returned with the deletion
    flag set is not in the snapshot under its key, unless the same fetch
    also returned an item of that key without the flag. *)
Theorem cycle_removes_flagged_item
  (storage : Storage) (user : User) (library : Library) (c : Cycle)
  (item : Item) :
  let versions := libraryReadVersions storage user library in
  let items := fetched_items (cycle_zotero c) library versions in
  In item items ->
  item_deleted item = true ->
  ~ In (item_key item)
       (keys_of item_key
          (filter (fun other => negb (item_deleted other)) items)) ->
  ~ In (item_key item)
       (keys_of item_key (data_items (sync_cycle storage user library c))).
Proof.
  cbv zeta. intros Hin Hflag Hother Hkey.
  rewrite (proj2 (sync_cycle_sequences storage user library c)) in Hkey.
  apply merged_keys in Hkey. cbn [deleted updated] in Hkey.
  destruct Hkey as [Hkey | [_ [Hkey _]]]; [now apply Hother |].
  apply Hkey. apply in_or_app. right. unfold keys_of. apply in_map.
  apply filter_In. now split.
Qed.

Lemma cycle_removes_flagged_item_witness :
  ~ In "I3"%string
       (keys_of item_key
          (data_items
             (sync_cycle Ex.storage Ex.user Ex.personal
                {| cycle_groupSync := None;
                   cycle_zotero := Ex.remote_at 12 |}))).
Proof.
  apply (cycle_removes_flagged_item Ex.storage Ex.user Ex.personal
           {| cycle_groupSync := None; cycle_zotero := Ex.remote_at 12 |}
           Ex.i3).
  - cbn. now left.
  - reflexivity.
  - cbn. intuition discriminate.
Defined.

(** X13: after a cycle, every collection the collection fetch returned is
    in the snapshot, and so is every item the item fetch returned without
    the deletion flag, whatever the deletion feed lists. *)
Theorem cycle_keeps_fetched_entities
  (storage : Storage) (user : User) (library : Library) (c : Cycle) :
  let versions := libraryReadVersions storage user library in
  let snapshot := sync_cycle storage user library c in
  (forall collection,
     In collection (fetched_collections (cycle_zotero c) library versions) ->
     In collection (data_collections snapshot))
  /\ (forall item,
        In item (fetched_items (cycle_zotero c) library versions) ->
        item_deleted item = false ->
        In item (data_items snapshot)).
Proof.
  cbv zeta.
  destruct (sync_cycle_sequences storage user library c) as [Ec Ei].
  rewrite Ec, Ei. unfold syncObjects. cbn [deleted updated]. split.
  - intros collection H. apply in_or_app. now right.
  - intros item H Hflag. apply in_or_app. right.
    apply filter_In. split; [assumption | now rewrite Hflag].
Qed.

(** X14: after a cycle, a collection key the deletion feed lists is not
    in the snapshot unless the collection fetch returned a collection of
    that key; an item key the deletion feed lists is not in the snapshot
    unless the item fetch returned an unflagged item of that key. *)
Theorem cycle_removes_fed_keys
  (storage : Storage) (user : User) (library : Library) (c : Cycle)
  (k : string) :
  let versions := libraryReadVersions storage user library in
  let feed := deletion_feed (cycle_zotero c) library versions in
  let snapshot := sync_cycle storage user library c in
  (In k (del_collections feed) ->
   ~ In k (keys_of coll_key
             (fetched_collections (cycle_zotero c) library versions)) ->
   ~ In k (keys_of coll_key (data_collections snapshot)))
  /\ (In k (del_items feed) ->
      ~ In k (keys_of item_key
                (filter (fun item => negb (item_deleted item))
                   (fetched_items (cycle_zotero c) library versions))) ->
      ~ In k (keys_of item_key (data_items snapshot))).
Proof.
  cbv zeta.
  destruct (sync_cycle_sequences storage user library c) as [Ec Ei].
  rewrite Ec, Ei. split; intros Hfeed Hfetch Hkey;
    apply merged_keys in Hkey; cbn [deleted updated] in Hkey;
    destruct Hkey as [Hkey | [_ [Hkey _]]].
  - now apply Hfetch.
  - now apply Hkey.
  - now apply Hfetch.
  - apply Hkey. apply in_or_app. now left.
Qed.

(** X15: starting from a store whose collections and items carry each key
    once, every snapshot applied by a run of cycles carries each key once,
    provided each cycle's collection fetch and each cycle's unflagged
    fetched items carry each key once. *)
Theorem sync_run_unique_keys
  (storage : Storage) (user : User) (library : Library)
  (cycles : list Cycle) :
  let local := libraryRead storage (userWebLibrariesDir storage user) library in
  unique_keys coll_key (data_collections local) ->
  unique_keys item_key (data_items local) ->
  fetches_unique storage user library cycles ->
  Forall (fun snapshot =>
            unique_keys coll_key (data_collections snapshot)
            /\ unique_keys item_key (data_items snapshot))
         (sync_run storage user library cycles).
Proof.
  cbv zeta. revert storage.
  induction cycles as [| c rest IH]; intros storage Hc Hi Hf;
    cbn [sync_run]; [constructor |].
  cbn [fetches_unique] in Hf. cbv zeta in Hf.
  destruct Hf as [Hfc [Hfi Hrest]].
  destruct (sync_cycle_sequences storage user library c) as [Ec Ei].
  assert (Hc' : unique_keys coll_key
                  (data_collections (sync_cycle storage user library c)))
    by (rewrite Ec; now apply syncObjects_unique).
  assert (Hi' : unique_keys item_key
                  (data_items (sync_cycle storage user library c)))
    by (rewrite Ei; now apply syncObjects_unique).
  constructor; [now split |].
  apply IH; assumption.
Qed.

Lemma sync_run_unique_keys_witness :
  Forall (fun snapshot =>
            unique_keys coll_key (data_collections snapshot)
            /\ unique_keys item_key (data_items snapshot))
         (sync_run Ex.storage Ex.user Ex.personal
            [ {| cycle_groupSync := None; cycle_zotero := Ex.remote_at 12 |};
              {| cycle_groupSync := None; cycle_zotero := Ex.tidy_at 15 |} ]).
Proof.
  apply (sync_run_unique_keys Ex.storage Ex.user Ex.personal
           [ {| cycle_groupSync := None; cycle_zotero := Ex.remote_at 12 |};
             {| cycle_groupSync := None; cycle_zotero := Ex.tidy_at 15 |} ]);
    unfold unique_keys; cbn;
    repeat split;
    repeat (constructor; [cbn; intuition discriminate |]); constructor.
Defined.

Lemma cycle_removes_fed_keys_witness :
  ~ In "C2"%string
       (keys_of coll_key
          (data_collections
             (sync_cycle Ex.storage Ex.user Ex.personal
                {| cycle_groupSync := None;
                   cycle_zotero := Ex.tidy_at 12 |}))).
Proof.
  apply (proj1 (cycle_removes_fed_keys Ex.storage Ex.user Ex.personal
                  {| cycle_groupSync := None;
                     cycle_zotero := Ex.tidy_at 12 |} "C2")).
  - cbn. now left.
  - cbn. intuition discriminate.
Defined.

Lemma cycle_keeps_fetched_entities_witness :
  In Ex.c1'
     (data_collections
        (sync_cycle Ex.storage Ex.user Ex.personal
           {| cycle_groupSync := None; cycle_zotero := Ex.remote_at 12 |}))
  /\ In Ex.i9
        (data_items
           (sync_cycle Ex.storage Ex.user Ex.personal
              {| cycle_groupSync := None;
                 cycle_zotero := Ex.remote_at 12 |})).
Proof.
  destruct (cycle_keeps_fetched_entities Ex.storage Ex.user Ex.personal
              {| cycle_groupSync := None; cycle_zotero := Ex.remote_at 12 |})
    as [Hc Hi].
  split.
  - apply Hc. cbn. now left.
  - apply Hi; [cbn; right; now left | reflexivity].
Defined.
